(** * ConferenceTimer: the timing state machine of
    react/features/conference/components/ConferenceTimer.js

    The React component is embedded as explicit state passing over a
    [World]: the component instance (props, state, the two interval
    handles) together with the part of the host environment the
    component talks to (the table of active [setInterval] timers, the
    handle counter, and the trace of observable calls it makes:
    [setState], [dispatch], [setInterval], [clearInterval]).

    Conventions of the embedding:
    - a [?number] prop is an [option Z]; JavaScript truthiness of such a
      value is [truthy]: [undefined]/[null] and [0] are falsy. Epoch
      milliseconds are integers far inside the range a JavaScript
      number represents exactly, so [Z] arithmetic is that of the code;
    - [new Date().getTime()] is an explicit argument [now] of every
      method that samples the clock (each method samples it once);
    - [setInterval] returns a fresh positive handle, [clearInterval]
      removes the handle from the table of active timers; a callback
      only runs while its handle is in that table;
    - [setState] is applied at once, as React does for calls made from
      timer callbacks and as is indistinguishable for the lifecycle
      methods here, none of which reads the state after writing it;
    - the trace [effects] lists the calls newest first. *)

From Stdlib Require Import ZArith String Ascii List Lia Bool DecimalString.
From stdpp Require Import base gmap.
Import ListNotations.

Local Open Scope Z_scope.

(** ** Data model *)

(** A style object; the component only ever uses [{}] and
    [{ 'color': 'red' }]. *)
Abbreviation Style := (list (string * string)).

Definition STYLE_EMPTY : Style := [].
Definition STYLE_RED : Style := [("color"%string, "red"%string)].

(** type Props *)
Record Props := mkProps {
  _startTimestamp : option Z;
  _endTimestamp : option Z
}.

(** type State *)
Record State := mkState {
  timerValue : string;
  textStyle : Style
}.

(** The two closures handed to [setInterval]. *)
Inductive Callback := ElapsedTick | CountdownTick.

(** NOTIFICATION_TIMEOUT_TYPE of the notifications feature. *)
Inductive NOTIFICATION_TIMEOUT_TYPE := SHORT | MEDIUM | LONG | STICKY.

(** The redux actions the component dispatches. *)
Inductive Action :=
| showNotification (titleArguments : list (string * string))
                   (titleKey : string)
                   (timeout : NOTIFICATION_TIMEOUT_TYPE)
| endConference.

(** Calls observable from outside the component. *)
Inductive Effect :=
| SetTimerValue (v : string)
| SetTextStyle (s : Style)
| Dispatch (a : Action)
| SetInterval (h : positive) (cb : Callback)
| ClearInterval (h : positive).

Record World := mkWorld {
  props : Props;
  state : State;
  _interval : option positive;
  _countdownInterval : option positive;
  timers : gmap positive Callback;
  next_handle : positive;
  effects : list Effect
}.

#[global] Instance Callback_eq_dec : EqDecision Callback.
Proof. solve_decision. Defined.

(** JavaScript truthiness of a [?number]. *)
Definition truthy (t : option Z) : bool :=
  match t with
  | Some z => negb (z =? 0)
  | None => false
  end.

(** JavaScript truthiness of an interval handle field: [undefined]
    until assigned, a positive integer afterwards. *)
Definition handle_set (h : option positive) : bool :=
  match h with
  | Some _ => true
  | None => false
  end.

(** ** Host operations *)

Definition log (e : Effect) (w : World) : World :=
  mkWorld (props w) (state w) (_interval w) (_countdownInterval w)
          (timers w) (next_handle w) (e :: effects w).

Definition with_state (s : State) (w : World) : World :=
  mkWorld (props w) s (_interval w) (_countdownInterval w)
          (timers w) (next_handle w) (effects w).

Definition with_props (p : Props) (w : World) : World :=
  mkWorld p (state w) (_interval w) (_countdownInterval w)
          (timers w) (next_handle w) (effects w).

(** this.setState({ timerValue: v }) *)
Definition setState_timerValue (v : string) (w : World) : World :=
  log (SetTimerValue v) (with_state (mkState v (textStyle (state w))) w).

(** this.setState({ textStyle: s }) *)
Definition setState_textStyle (s : Style) (w : World) : World :=
  log (SetTextStyle s) (with_state (mkState (timerValue (state w)) s) w).

(** dispatch(a) *)
Definition dispatch (a : Action) (w : World) : World := log (Dispatch a) w.

(** setInterval(cb, 1000): the new handle and the world with the timer
    registered. *)
Definition setInterval (cb : Callback) (w : World) : positive * World :=
  let h := next_handle w in
  (h, log (SetInterval h cb)
        (mkWorld (props w) (state w) (_interval w) (_countdownInterval w)
                 (<[h := cb]> (timers w)) (Pos.succ h) (effects w))).

(** clearInterval(h) *)
Definition clearInterval (h : positive) (w : World) : World :=
  log (ClearInterval h)
      (mkWorld (props w) (state w) (_interval w) (_countdownInterval w)
               (delete h (timers w)) (next_handle w) (effects w)).

Definition set_interval_field (h : positive) (w : World) : World :=
  mkWorld (props w) (state w) (Some h) (_countdownInterval w)
          (timers w) (next_handle w) (effects w).

Definition set_countdownInterval_field (h : positive) (w : World) : World :=
  mkWorld (props w) (state w) (_interval w) (Some h)
          (timers w) (next_handle w) (effects w).

(** ** The component *)

Section ConferenceTimer.

(** The duration formatter of base/i18n, consumed as an opaque pure
    function of the duration in milliseconds. *)
Variable getLocalizedDurationFormatter : Z -> string.

(** constructor(props) *)
Definition constructor (p : Props) : World :=
  mkWorld p (mkState (getLocalizedDurationFormatter 0) STYLE_EMPTY)
          None None ∅ 1%positive [].

(** render(): [None] is the [null] element, [Some] the arguments handed
    to renderConferenceTimer. *)
Definition render (w : World) : option (string * Style) :=
  if negb (truthy (_startTimestamp (props w))) then None
  else Some (timerValue (state w), textStyle (state w)).

(** _setStateFromUTC(refValueUTC, currentValueUTC) *)
Definition _setStateFromUTC (refValueUTC currentValueUTC : option Z)
    (w : World) : World :=
  if negb (truthy refValueUTC) || negb (truthy currentValueUTC) then w
  else
    match refValueUTC, currentValueUTC with
    | Some r, Some c =>
        if c <? r then w
        else
          let timerMsValue := c - r in
          let localizedTime := getLocalizedDurationFormatter timerMsValue in
          setState_timerValue localizedTime w
    | _, _ => w
    end.

(** The closure passed to setInterval by _startTimer. *)
Definition elapsed_tick (now : Z) (w : World) : World :=
  _setStateFromUTC (_startTimestamp (props w)) (Some now) w.

(** _startTimer() *)
Definition _startTimer (now : Z) (w : World) : World :=
  if negb (handle_set (_interval w)) then
    let w1 := _setStateFromUTC (_startTimestamp (props w)) (Some now) w in
    let '(h, w2) := setInterval ElapsedTick w1 in
    set_interval_field h w2
  else w.

(** _stopTimer() *)
Definition _stopTimer (w : World) : World :=
  match _interval w with
  | Some h => clearInterval h w
  | None => w
  end.

(** _stopCountdownTimer() *)
Definition _stopCountdownTimer (w : World) : World :=
  let w1 := match _countdownInterval w with
            | Some h => clearInterval h w
            | None => w
            end in
  setState_timerValue (getLocalizedDurationFormatter 0) w1.

(** The notification dispatched at the 30 seconds mark. *)
Definition countdownNotice : Action :=
  showNotification
    [("period", "30"); ("periodType", "seconds")]%string
    "notify.countdownNotice"%string
    MEDIUM.

(** The closure passed to setInterval by _startCountdown. *)
Definition countdown_tick (now : Z) (w : World) : World :=
  let w1 := _setStateFromUTC (Some now) (_endTimestamp (props w)) w in
  let w2 :=
    if String.eqb (timerValue (state w1)) "00:30" then
      dispatch countdownNotice (setState_textStyle STYLE_RED w1)
    else w1 in
  if String.eqb (timerValue (state w2)) "00:01" then
    _stopCountdownTimer (dispatch endConference w2)
  else w2.

(** _startCountdown() *)
Definition _startCountdown (now : Z) (w : World) : World :=
  if negb (handle_set (_countdownInterval w)) then
    let w1 := _setStateFromUTC (Some now) (_endTimestamp (props w)) w in
    let '(h, w2) := setInterval CountdownTick w1 in
    set_countdownInterval_field h w2
  else w.

(** componentDidMount() *)
Definition componentDidMount (now : Z) (w : World) : World :=
  _startTimer now w.

(** componentDidUpdate(prevProps, prevState) *)
Definition componentDidUpdate (prevProps : Props) (now : Z) (w : World)
    : World :=
  if truthy (_endTimestamp (props w))
     && bool_decide (_endTimestamp prevProps ≠ _endTimestamp (props w))
  then _startCountdown now (_stopTimer w)
  else w.

(** componentWillUnmount() *)
Definition componentWillUnmount (w : World) : World :=
  _stopTimer w.

(** ** The life of a mounted instance

    While the component is mounted two things happen to it: the store
    hands it new props (React assigns [this.props] and then calls
    [componentDidUpdate] with the previous ones), and the host fires
    the callback of a timer that is still registered. The re-render
    that follows a [setState] also reaches [componentDidUpdate], with
    the props unchanged, where it finds nothing to do
    ([componentDidUpdate_same_deadline]); it is left out of [step]. *)
Inductive Event :=
| PropsChanged (p : Props) (now : Z)
| Tick (h : positive) (now : Z).

Definition fire (h : positive) (now : Z) (w : World) : World :=
  match timers w !! h with
  | Some ElapsedTick => elapsed_tick now w
  | Some CountdownTick => countdown_tick now w
  | None => w
  end.

Definition step (w : World) (e : Event) : World :=
  match e with
  | PropsChanged p now => componentDidUpdate (props w) now (with_props p w)
  | Tick h now => fire h now w
  end.

Definition run (evs : list Event) (w : World) : World :=
  fold_left step evs w.

(** A freshly constructed and mounted instance. *)
Definition mounted (p : Props) (now : Z) : World :=
  componentDidMount now (constructor p).

End ConferenceTimer.

(** Decimal digits, for the concrete formatter below. *)
Definition digit (n : Z) : ascii := ascii_of_N (48 + Z.to_N n).

Definition two_digits (n : Z) : string :=
  String (digit (n / 10)) (String (digit (n mod 10)) EmptyString).

(** Modelled from the spec: getLocalizedDurationFormatter is defined in
    base/i18n, which is not part of the sources at hand. The spec gives
    it as a pure function from milliseconds to a string of the shape
    MM:SS (with hours in front from one hour on), with 65 seconds
    rendered as 01:05, 30 seconds as 00:30, one second as 00:01 and
    zero as 00:00. The spec says nothing about durations that are not
    whole seconds; here they are rounded to the nearest second first,
    and the shape is chosen on the rounded value. The function is only
    used to evaluate the component on concrete inputs, every duration
    formatted there is a whole number of seconds below one hour, and
    every general statement below holds for an arbitrary formatter. *)
Definition formatDuration (ms : Z) : string :=
  let s := (ms + 500) / 1000 in
  if s <? 3600 then
    (two_digits (s / 60) ++ ":" ++ two_digits (s mod 60))%string
  else
    (NilZero.string_of_uint (N.to_uint (Z.to_N (s / 3600))) ++ ":"
     ++ two_digits ((s / 60) mod 60) ++ ":" ++ two_digits (s mod 60))%string.

(** [n] ticks of the timer [h], one second apart, the first at [t0]. *)
Fixpoint ticks (h : positive) (t0 : Z) (n : nat) : list Event :=
  match n with
  | O => []
  | S n' => Tick h t0 :: ticks h (t0 + 1000) n'
  end.

(** ** Reading the trace *)

Definition is_endConference (e : Effect) : bool :=
  match e with
  | Dispatch endConference => true
  | _ => false
  end.

Definition is_showNotification (e : Effect) : bool :=
  match e with
  | Dispatch (showNotification _ _ _) => true
  | _ => false
  end.

Definition is_setInterval (cb : Callback) (e : Effect) : bool :=
  match e with
  | SetInterval _ cb' => bool_decide (cb = cb')
  | _ => false
  end.

Fixpoint count (f : Effect -> bool) (l : list Effect) : nat :=
  match l with
  | [] => 0%nat
  | e :: l' => ((if f e then 1 else 0) + count f l')%nat
  end.


(** Everything the component ever emits has one of these shapes: a
    published duration is non-negative, the only style it sets is the
    alert style, and it dispatches nothing but the countdown notice
    (period 30, periodType seconds, medium timeout) and endConference. *)
Definition effect_ok (fmt : Z -> string) (e : Effect) : Prop :=
  match e with
  | SetTimerValue v => exists d, 0 <= d /\ v = fmt d
  | SetTextStyle s => s = [("color", "red")]%string
  | Dispatch a =>
      a = showNotification
            [("period", "30"); ("periodType", "seconds")]%string
            "notify.countdownNotice"%string MEDIUM
      \/ a = endConference
  | _ => True
  end.


(** The handle field and the stop operation that belong to a loop. *)
Definition handle_of (cb : Callback) (w : World) : option positive :=
  match cb with
  | ElapsedTick => _interval w
  | CountdownTick => _countdownInterval w
  end.

Definition stop_of (fmt : Z -> string) (cb : Callback) (w : World) : World :=
  match cb with
  | ElapsedTick => _stopTimer w
  | CountdownTick => _stopCountdownTimer fmt w
  end.

(** The three modes of the engine, read off a world reached from a
    mounted instance: which loop, if any, is registered with the host. *)
Inductive Mode := Idle | Elapsed | Countdown.

Definition in_mode (m : Mode) (w : World) : Prop :=
  _interval w = Some 1%positive /\
  match m with
  | Elapsed =>
      _countdownInterval w = None /\ next_handle w = 2%positive /\
      timers w = {[ 1%positive := ElapsedTick ]}
  | Countdown =>
      _countdownInterval w = Some 2%positive /\ next_handle w = 3%positive /\
      timers w = {[ 2%positive := CountdownTick ]}
  | Idle =>
      _countdownInterval w = Some 2%positive /\ next_handle w = 3%positive /\
      timers w = ∅
  end.

Section Lifecycle.

Variable fmt : Z -> string.

(** Does this event run the countdown callback with the string [v] on
    display once the callback's duration update is done? *)
Definition shows (v : string) (w : World) (e : Event) : bool :=
  match e with
  | Tick h now =>
      match timers w !! h with
      | Some CountdownTick =>
          String.eqb
            (timerValue
               (state (_setStateFromUTC fmt (Some now)
                         (_endTimestamp (props w)) w)))
            v
      | _ => false
      end
  | PropsChanged _ _ => false
  end.

(** How many events of a run are such ticks. *)
Fixpoint ticks_showing (v : string) (evs : list Event) (w : World) : nat :=
  match evs with
  | [] => 0%nat
  | e :: evs' =>
      ((if shows v w e then 1 else 0) + ticks_showing v evs' (step fmt w e))%nat
  end.

(** What holds of every world a mounted instance can reach: the mode,
    and what the trace has recorded so far. *)
Definition Inv (w : World) : Prop :=
  count (is_setInterval ElapsedTick) (effects w) = 1%nat /\
  Forall (effect_ok fmt) (effects w) /\
  ((in_mode Elapsed w /\
    count (is_setInterval CountdownTick) (effects w) = 0%nat /\
    count is_endConference (effects w) = 0%nat)
   \/
   (in_mode Countdown w /\
    count (is_setInterval CountdownTick) (effects w) = 1%nat /\
    count is_endConference (effects w) = 0%nat)
   \/
   (in_mode Idle w /\
    count (is_setInterval CountdownTick) (effects w) = 1%nat /\
    count is_endConference (effects w) = 1%nat /\
    timerValue (state w) = fmt 0)).

End Lifecycle.

(** Does this event run the countdown callback with a duration update
    that is not skipped and that formats the remaining time as [v]? *)
Definition formats (fmt : Z -> string) (v : string) (w : World) (e : Event)
    : bool :=
  match e with
  | Tick h now =>
      match timers w !! h, _endTimestamp (props w) with
      | Some CountdownTick, Some d =>
          truthy (Some now) && truthy (Some d) && negb (d <? now)
          && String.eqb (fmt (d - now)) v
      | _, _ => false
      end
  | PropsChanged _ _ => false
  end.


(** ** Further readings of a trace and of a run *)

(** The calls of an instance that has only ever measured elapsed time:
    publications of a duration and setInterval. *)
Definition is_quiet (e : Effect) : bool :=
  match e with
  | SetTimerValue _ | SetInterval _ _ => true
  | _ => false
  end.

Definition is_setInterval_of (h : positive) (e : Effect) : bool :=
  match e with
  | SetInterval h' _ => Pos.eqb h h'
  | _ => false
  end.

(** Every clearInterval of the trace (newest call first) names a handle
    that an earlier setInterval of the trace returned. *)
Fixpoint clears_owned (l : list Effect) : bool :=
  match l with
  | [] => true
  | ClearInterval h :: rest =>
      existsb (is_setInterval_of h) rest && clears_owned rest
  | _ :: rest => clears_owned rest
  end.

(** Does some update of the run hand over a truthy deadline that
    differs from the deadline prop it replaces? [prev] is the deadline
    prop before the first event. This is the condition of
    componentDidUpdate, read along the events. *)
Fixpoint delivers_deadline (prev : option Z) (evs : list Event) : bool :=
  match evs with
  | [] => false
  | PropsChanged p _ :: evs' =>
      (truthy (_endTimestamp p) && bool_decide (prev <> _endTimestamp p))
      || delivers_deadline (_endTimestamp p) evs'
  | Tick _ _ :: evs' => delivers_deadline prev evs'
  end.

(** The style on display goes with the notices in the trace: plain
    while there is none, alert once there is one. *)
Definition style_tracks_notices (w : World) : Prop :=
  (textStyle (state w) = STYLE_EMPTY /\
   count is_showNotification (effects w) = 0%nat)
  \/
  (textStyle (state w) = STYLE_RED /\
   (0 < count is_showNotification (effects w))%nat).

Definition same_style_notices (w' w : World) : Prop :=
  textStyle (state w') = textStyle (state w) /\
  count is_showNotification (effects w')
  = count is_showNotification (effects w).

(** Both handle fields name timers the trace has set, and the trace
    clears only what it has set. *)
Definition owns (w : World) : Prop :=
  (forall h, _interval w = Some h ->
             existsb (is_setInterval_of h) (effects w) = true) /\
  (forall h, _countdownInterval w = Some h ->
             existsb (is_setInterval_of h) (effects w) = true) /\
  clears_owned (effects w) = true.

(** ** Basic facts *)

Ltac unfold_host :=
  unfold setInterval, clearInterval, setState_timerValue, setState_textStyle,
    dispatch, set_interval_field, set_countdownInterval_field, log,
    with_state, with_props, countdownNotice, STYLE_RED, STYLE_EMPTY in *.

Ltac unfold_methods :=
  unfold step, fire, componentDidUpdate, componentDidMount,
    componentWillUnmount, _startCountdown, _startTimer, _stopTimer,
    _stopCountdownTimer, countdown_tick, elapsed_tick in *.

Ltac case_ifs :=
  repeat match goal with
         | |- context [if ?b then _ else _] => destruct b eqn:?; simpl
         end.

Ltac solve_effects :=
  repeat (constructor;
          [ simpl;
            first [ exact I | reflexivity | left; reflexivity
                  | right; reflexivity
                  | eexists; split; [|reflexivity]; lia ] | ]);
  first [ assumption | constructor ].

Ltac solve_leaf :=
  simpl in *;
  repeat match goal with
         | |- _ /\ _ => split
         end;
  first [ reflexivity | assumption | solve_effects | simpl; lia | congruence ].

Section Facts.

Variable fmt : Z -> string.

Lemma run_app evs1 evs2 w :
  run fmt (evs1 ++ evs2) w = run fmt evs2 (run fmt evs1 w).
Proof. unfold run. apply fold_left_app. Qed.

Lemma run_cons e evs w : run fmt (e :: evs) w = run fmt evs (step fmt w e).
Proof. reflexivity. Qed.


(** The duration update either leaves the world alone or publishes the
    formatting of a non-negative difference. *)
Lemma _setStateFromUTC_cases ref cur w :
  _setStateFromUTC fmt ref cur w = w \/
  exists r c, ref = Some r /\ cur = Some c /\ r <> 0 /\ c <> 0 /\ r <= c /\
    _setStateFromUTC fmt ref cur w = setState_timerValue (fmt (c - r)) w.
Proof.
  unfold _setStateFromUTC.
  destruct ref as [r|]; [|left; reflexivity].
  destruct cur as [c|]; [|left; simpl; rewrite orb_true_r; reflexivity].
  simpl. destruct (Z.eqb_spec r 0); [left; reflexivity|].
  destruct (Z.eqb_spec c 0); [left; reflexivity|]. simpl.
  destruct (Z.ltb_spec c r); [left; reflexivity|].
  right. exists r, c. repeat split; auto.
Qed.

Lemma _setStateFromUTC_publishes r c w :
  r <> 0 -> c <> 0 -> r <= c ->
  _setStateFromUTC fmt (Some r) (Some c) w
  = setState_timerValue (fmt (c - r)) w.
Proof.
  intros Hr Hc Hle. unfold _setStateFromUTC. simpl.
  destruct (Z.eqb_spec r 0); [contradiction|].
  destruct (Z.eqb_spec c 0); [contradiction|]. simpl.
  destruct (Z.ltb_spec c r); [lia | reflexivity].
Qed.

Lemma _setStateFromUTC_falsy ref cur w :
  truthy ref = false \/ truthy cur = false ->
  _setStateFromUTC fmt ref cur w = w.
Proof.
  intros [H | H]; unfold _setStateFromUTC; rewrite H; simpl;
    [reflexivity | rewrite orb_true_r; reflexivity].
Qed.


Ltac case_update :=
  match goal with
  | |- context [_setStateFromUTC ?f ?r ?c ?w] =>
      let E := fresh "E" in
      destruct (_setStateFromUTC_cases r c w)
        as [E | (? & ? & ? & ? & ? & ? & ? & E)];
      rewrite !E; clear E
  end.

Ltac solve_Inv :=
  unfold Inv, in_mode; simpl;
  split; [solve_leaf|]; split; [solve_leaf|];
  first [ left; solve [solve_leaf]
        | right; left; solve [solve_leaf]
        | right; right; solve [solve_leaf] ].

Lemma mounted_Inv p now : Inv fmt (mounted fmt p now).
Proof.
  unfold mounted, componentDidMount, _startTimer, constructor. simpl.
  case_update; unfold_host; simpl; solve_Inv.
Qed.

Lemma mounted_no_dispatch p now :
  count is_endConference (effects (mounted fmt p now)) = 0%nat /\
  count is_showNotification (effects (mounted fmt p now)) = 0%nat.
Proof.
  unfold mounted, componentDidMount, _startTimer, constructor. simpl.
  case_update; unfold_host; simpl; split; reflexivity.
Qed.

(** One event: the invariant is kept, and the trace gains a terminate
    exactly when the countdown callback ran with 00:01 on display, a
    notice exactly when it ran with 00:30 on display. *)
Lemma step_Inv w e :
  Inv fmt w ->
  Inv fmt (step fmt w e) /\
  count is_endConference (effects (step fmt w e))
  = (count is_endConference (effects w)
     + if shows fmt "00:01" w e then 1 else 0)%nat /\
  count is_showNotification (effects (step fmt w e))
  = (count is_showNotification (effects w)
     + if shows fmt "00:30" w e then 1 else 0)%nat.
Proof.
  destruct w as [p st i c t n eff]. unfold Inv at 1, in_mode. simpl.
  intros (Hs & Hpub & [((Hi & Hc & Hn & Ht) & Hcs & Hce)
                      | [((Hi & Hc & Hn & Ht) & Hcs & Hce)
                        | ((Hi & Hc & Hn & Ht) & Hcs & Hce & Htv)]]); subst.
  - (* Elapsed *)
    destruct e as [p' now | h now]; unfold_methods; simpl.
    + destruct (truthy (_endTimestamp p')
                && bool_decide (_endTimestamp p ≠ _endTimestamp p')); simpl.
      * unfold_host. simpl.
        case_update; simpl; (split; [solve_Inv | solve_leaf]).
      * split; [solve_Inv | solve_leaf].
    + rewrite !lookup_singleton. case_decide; simpl.
      * case_update; unfold_host; simpl; (split; [solve_Inv | solve_leaf]).
      * split; [solve_Inv | solve_leaf].
  - (* Countdown *)
    destruct e as [p' now | h now]; unfold_methods; simpl.
    + destruct (truthy (_endTimestamp p')
                && bool_decide (_endTimestamp p ≠ _endTimestamp p')); simpl.
      * unfold_host. simpl. split; [solve_Inv | solve_leaf].
      * split; [solve_Inv | solve_leaf].
    + rewrite !lookup_singleton. case_decide; simpl.
      * case_update; unfold_host; simpl; case_ifs;
          (split; [solve_Inv | solve_leaf]).
      * split; [solve_Inv | solve_leaf].
  - (* Idle *)
    destruct e as [p' now | h now]; unfold_methods; simpl.
    + destruct (truthy (_endTimestamp p')
                && bool_decide (_endTimestamp p ≠ _endTimestamp p')); simpl.
      * unfold_host. simpl. split; [solve_Inv | solve_leaf].
      * split; [solve_Inv | solve_leaf].
    + rewrite !lookup_empty. simpl. split; [solve_Inv | solve_leaf].
Qed.

Lemma run_Inv evs w : Inv fmt w -> Inv fmt (run fmt evs w).
Proof.
  revert w. induction evs as [|e evs IH]; intros w HI; [exact HI|].
  rewrite run_cons. apply IH. apply step_Inv, HI.
Qed.

Lemma reachable_Inv p now evs : Inv fmt (run fmt evs (mounted fmt p now)).
Proof. apply run_Inv, mounted_Inv. Qed.

Lemma run_counts evs w :
  Inv fmt w ->
  count is_endConference (effects (run fmt evs w))
  = (count is_endConference (effects w) + ticks_showing fmt "00:01" evs w)%nat
  /\
  count is_showNotification (effects (run fmt evs w))
  = (count is_showNotification (effects w)
     + ticks_showing fmt "00:30" evs w)%nat.
Proof.
  revert w. induction evs as [|e evs IH]; intros w HI.
  - simpl. split; lia.
  - rewrite run_cons. destruct (step_Inv w e HI) as (HI' & He & Hn).
    destruct (IH _ HI') as (IHe & IHn). simpl.
    rewrite IHe, IHn, He, Hn. split; lia.
Qed.

Lemma Inv_modes w :
  Inv fmt w -> in_mode Elapsed w \/ in_mode Countdown w \/ in_mode Idle w.
Proof. intros (_ & _ & [H | [H | H]]); tauto. Qed.

Lemma reachable_mode p now evs :
  exists m, in_mode m (run fmt evs (mounted fmt p now)).
Proof.
  destruct (Inv_modes _ (reachable_Inv p now evs)) as [H | [H | H]]; eauto.
Qed.

(** *** Facts about single methods, in any world *)

Lemma _startTimer_noop now w :
  _interval w <> None -> _startTimer fmt now w = w.
Proof.
  unfold _startTimer. destruct (_interval w); [reflexivity | congruence].
Qed.

Lemma _startCountdown_noop now w :
  _countdownInterval w <> None -> _startCountdown fmt now w = w.
Proof.
  unfold _startCountdown.
  destruct (_countdownInterval w); [reflexivity | congruence].
Qed.

Lemma _stopTimer_keeps_handles w :
  _interval (_stopTimer w) = _interval w /\
  _countdownInterval (_stopTimer w) = _countdownInterval w.
Proof.
  unfold _stopTimer. destruct (_interval w) eqn:E; split; simpl; congruence.
Qed.

Lemma _stopCountdownTimer_keeps_handles w :
  _interval (_stopCountdownTimer fmt w) = _interval w /\
  _countdownInterval (_stopCountdownTimer fmt w) = _countdownInterval w.
Proof.
  unfold _stopCountdownTimer.
  destruct (_countdownInterval w) eqn:E; split; simpl; congruence.
Qed.

Lemma _stopTimer_timers w h :
  _interval w = Some h -> timers (_stopTimer w) = delete h (timers w).
Proof. unfold _stopTimer. intros ->. reflexivity. Qed.

Lemma _stopCountdownTimer_timers w h :
  _countdownInterval w = Some h ->
  timers (_stopCountdownTimer fmt w) = delete h (timers w).
Proof. unfold _stopCountdownTimer. intros ->. reflexivity. Qed.

(** A re-render that leaves the deadline prop as it was (every
    [setState] causes one) finds nothing to do in componentDidUpdate. *)
Lemma componentDidUpdate_same_deadline prev now w :
  _endTimestamp prev = _endTimestamp (props w) ->
  componentDidUpdate fmt prev now w = w.
Proof.
  intros Heq. unfold componentDidUpdate.
  rewrite bool_decide_eq_false_2 by (intros Hne; apply Hne, Heq).
  rewrite andb_false_r. reflexivity.
Qed.

Lemma step_keeps_countdown_handle w e :
  _countdownInterval w <> None -> _countdownInterval (step fmt w e) <> None.
Proof.
  destruct w as [p st i c t n eff]. simpl. intros Hc.
  destruct c as [c|]; [clear Hc | congruence].
  destruct e as [p' now | h now]; unfold_methods; simpl.
  - destruct (truthy (_endTimestamp p')
              && bool_decide (_endTimestamp p ≠ _endTimestamp p')); simpl;
      [destruct i|]; simpl; congruence.
  - destruct (t !! h) as [[|]|]; simpl; [| |congruence].
    + case_update; simpl; congruence.
    + case_update; unfold_host; simpl; case_ifs; congruence.
Qed.

Lemma run_keeps_countdown_handle evs w :
  _countdownInterval w <> None ->
  _countdownInterval (run fmt evs w) <> None.
Proof.
  revert w. induction evs as [|e evs IH]; intros w Hc; [exact Hc|].
  rewrite run_cons. apply IH, step_keeps_countdown_handle, Hc.
Qed.

(** Once the countdown handle is assigned the elapsed loop is gone. *)
Lemma countdown_handle_excludes_elapsed w h :
  Inv fmt w -> _countdownInterval w <> None ->
  timers w !! h <> Some ElapsedTick.
Proof.
  intros HI Hc.
  destruct (Inv_modes _ HI) as [(_ & Hn & _) | [(_ & _ & _ & Ht) | (_ & _ & _ & Ht)]].
  - congruence.
  - rewrite Ht, lookup_singleton. case_decide; congruence.
  - rewrite Ht, lookup_empty. congruence.
Qed.

Lemma no_elapsed_tick_after_countdown_started evs w h :
  Inv fmt w -> _countdownInterval w <> None ->
  timers (run fmt evs w) !! h <> Some ElapsedTick.
Proof.
  intros HI Hc. apply countdown_handle_excludes_elapsed.
  - apply run_Inv, HI.
  - apply run_keeps_countdown_handle, Hc.
Qed.

(** After the terminate was dispatched nothing is registered any more
    and the display stays at the formatting of zero. *)
Lemma terminated_forever evs w :
  Inv fmt w -> count is_endConference (effects w) = 1%nat ->
  timerValue (state (run fmt evs w)) = fmt 0 /\ timers (run fmt evs w) = ∅.
Proof.
  intros HI He.
  destruct (run_counts evs w HI) as (Hc & _).
  destruct (run_Inv evs w HI)
    as (_ & _ & [(_ & _ & H0) | [(_ & _ & H0) | ((_ & _ & _ & Ht) & _ & _ & Htv)]]).
  - lia.
  - lia.
  - split; assumption.
Qed.




(** A tick that formats the remaining time as [v] has [v] on display
    after its update; the converse fails when the update is skipped. *)
Lemma formats_shows v w e :
  formats fmt v w e = true -> shows fmt v w e = true.
Proof.
  destruct e as [p' now | h now]; simpl; [discriminate|].
  destruct (timers w !! h) as [[|]|]; try discriminate.
  destruct (_endTimestamp (props w)) as [d|]; [|discriminate].
  intros H. apply andb_prop in H as (H & Hv).
  apply andb_prop in H as (H & Hle). apply andb_prop in H as (Hn & Hd).
  rewrite _setStateFromUTC_publishes; [exact Hv | | |].
  - simpl in Hn. destruct (Z.eqb_spec now 0); [discriminate | assumption].
  - simpl in Hd. destruct (Z.eqb_spec d 0); [discriminate | assumption].
  - destruct (Z.ltb_spec d now); [discriminate | assumption].
Qed.

(** ** The claims, for any formatter *)

Ltac reach w HI :=
  match goal with
  | |- context [run fmt ?evs (mounted fmt ?p ?n)] =>
      pose proof (reachable_Inv p n evs) as HI;
      set (w := run fmt evs (mounted fmt p n)) in *;
      clearbody w
  end.

(** C2, as the code has it. Whenever a loop is registered with the host,
    the handle field of its mode holds exactly that handle, so a running
    loop always has a non-null handle. The converse fails: the stop
    operation of the mode unregisters the loop and leaves the handle
    field as it was. *)
Theorem scheduled_loop_has_handle_and_stop_keeps_it p now0 evs h cb :
  let w := run fmt evs (mounted fmt p now0) in
  timers w !! h = Some cb ->
  handle_of cb w = Some h /\
  timers (stop_of fmt cb w) !! h = None /\
  handle_of cb (stop_of fmt cb w) = Some h.
Proof.
  intros w. subst w. reach w HI. intros Ht.
  assert (Hh : handle_of cb w = Some h).
  { destruct (Inv_modes _ HI)
      as [(Hi & _ & _ & Hm) | [(_ & Hc & _ & Hm) | (_ & _ & _ & Hm)]];
      rewrite Hm in Ht.
    - rewrite lookup_singleton in Ht. case_decide; [|discriminate].
      injection Ht as <-. subst h. exact Hi.
    - rewrite lookup_singleton in Ht. case_decide; [|discriminate].
      injection Ht as <-. subst h. exact Hc.
    - rewrite lookup_empty in Ht. discriminate. }
  split; [exact Hh|]. destruct cb; cbn [stop_of handle_of] in *.
  - rewrite (_stopTimer_timers _ _ Hh), lookup_delete_eq.
    split; [reflexivity|].
    rewrite (proj1 (_stopTimer_keeps_handles w)). exact Hh.
  - rewrite (_stopCountdownTimer_timers _ _ Hh), lookup_delete_eq.
    split; [reflexivity|].
    rewrite (proj2 (_stopCountdownTimer_keeps_handles w)). exact Hh.
Qed.

(** C3, as the code has it. A deadline change to a truthy value that
    differs from the previous one stops the elapsed loop, and no elapsed
    tick can run in anything that follows. If no countdown was ever
    started, the countdown loop is then registered, after the
    clearInterval and after at most one publication of the remaining
    time. If a countdown handle is already stored, the registered timers
    and the display are left as they are: a running countdown loop is
    neither stopped nor restarted. *)
Theorem deadline_change_stops_elapsed_loop p now0 evs p' now :
  let w := run fmt evs (mounted fmt p now0) in
  let w' := step fmt w (PropsChanged p' now) in
  truthy (_endTimestamp p') = true ->
  _endTimestamp (props w) <> _endTimestamp p' ->
  (forall evs' h, timers (run fmt evs' w') !! h <> Some ElapsedTick) /\
  (_countdownInterval w = None ->
   timers w' = {[ 2%positive := CountdownTick ]} /\
   exists pub,
     effects w'
     = SetInterval 2 CountdownTick :: pub ++ ClearInterval 1 :: effects w /\
     (pub = [] \/ exists d, 0 <= d /\ pub = [SetTimerValue (fmt d)])) /\
  (_countdownInterval w <> None ->
   timers w' = timers w /\
   effects w' = ClearInterval 1 :: effects w /\
   state w' = state w).
Proof.
  intros w w'. subst w w'. reach w HI. intros Htruthy Hdiff.
  pose proof (proj1 (step_Inv w (PropsChanged p' now) HI)) as HI'.
  destruct w as [pr st i c t n eff].
  destruct (Inv_modes _ HI)
    as [(Hi & Hc & Hn & Hm) | [(Hi & Hc & Hn & Hm) | (Hi & Hc & Hn & Hm)]];
    simpl in Hi, Hc, Hn, Hm, Hdiff; subst;
    unfold step, componentDidUpdate in *; simpl in *;
    rewrite Htruthy, (bool_decide_eq_true_2 _ Hdiff) in *; simpl in *;
    unfold _startCountdown, _stopTimer in *; simpl in *.
  - split; [|split].
    + intros evs' h. apply no_elapsed_tick_after_countdown_started; [exact HI'|].
      unfold_host. case_update; simpl; congruence.
    + intros _. unfold_host.
      case_update; simpl; (split; [reflexivity|]).
      * exists []. split; [reflexivity | left; reflexivity].
      * eexists [_]. split; [reflexivity|].
        right. eexists. split; [|reflexivity]. lia.
    + intros Hne. congruence.
  - split; [|split].
    + intros evs' h. apply no_elapsed_tick_after_countdown_started; [exact HI'|].
      simpl. congruence.
    + intros Hne. discriminate.
    + intros _. repeat split; reflexivity.
  - split; [|split].
    + intros evs' h. apply no_elapsed_tick_after_countdown_started; [exact HI'|].
      simpl. congruence.
    + intros Hne. discriminate.
    + intros _. repeat split; reflexivity.
Qed.

(** C4, as the code has it. Mounting with a start timestamp that is
    absent (or zero) renders nothing and publishes nothing, but the
    elapsed loop is registered all the same: the only call made is the
    setInterval. The ticks of that loop change nothing for as long as
    the start timestamp stays absent. *)
Theorem mount_without_start_timestamp p now :
  truthy (_startTimestamp p) = false ->
  let w := mounted fmt p now in
  render w = None /\
  state w = state (constructor fmt p) /\
  effects w = [SetInterval 1 ElapsedTick] /\
  timers w = {[ 1%positive := ElapsedTick ]} /\
  (forall now', fire fmt 1 now' w = w).
Proof.
  intros Hs w. subst w.
  unfold mounted, componentDidMount, _startTimer, constructor. simpl.
  rewrite _setStateFromUTC_falsy by (left; exact Hs).
  unfold fire, render, elapsed_tick. simpl. rewrite Hs. simpl.
  repeat split; try reflexivity.
  intros now'. rewrite lookup_insert_eq.
  apply _setStateFromUTC_falsy. left. exact Hs.
Qed.

(** C5, as the code has it. Mounting with a start timestamp that is
    present, not zero and not after the sampled time (itself not zero)
    publishes the formatting of now - start at once, before the elapsed
    loop is registered. *)
Theorem mount_publishes_elapsed p now s :
  _startTimestamp p = Some s -> s <> 0 -> now <> 0 -> s <= now ->
  let w := mounted fmt p now in
  timerValue (state w) = fmt (now - s) /\
  effects w = [SetInterval 1 ElapsedTick; SetTimerValue (fmt (now - s))].
Proof.
  intros Hs Hs0 Hn Hle w. subst w.
  unfold mounted, componentDidMount, _startTimer, constructor. simpl.
  rewrite Hs, _setStateFromUTC_publishes by assumption.
  split; reflexivity.
Qed.




(** C9. A reference or current timestamp equal to zero makes the
    duration update return at once, exactly as an absent one does: the
    world, and with it the display and the trace, is what it was. *)
Theorem zero_timestamp_is_absent (x : option Z) (w : World) :
  _setStateFromUTC fmt (Some 0) x w = w /\
  _setStateFromUTC fmt x (Some 0) w = w /\
  _setStateFromUTC fmt None x w = w /\
  _setStateFromUTC fmt x None w = w.
Proof.
  repeat split; apply _setStateFromUTC_falsy; auto.
Qed.

(** C10. Over the whole life of a mounted instance the trace holds at
    most one setInterval of the elapsed callback and at most one of the
    countdown callback. Neither stop operation changes the stored
    handle; a later _startTimer is a no-op, and so is _startCountdown
    as soon as a countdown handle is stored. Once the terminate has
    been dispatched no timer is registered again, whatever deadline
    changes follow, and the countdown callback stays scheduled once. *)
Theorem each_loop_scheduled_at_most_once p now0 evs :
  let w := run fmt evs (mounted fmt p now0) in
  (count (is_setInterval ElapsedTick) (effects w) <= 1)%nat /\
  (count (is_setInterval CountdownTick) (effects w) <= 1)%nat /\
  _interval (_stopTimer w) = _interval w /\
  _countdownInterval (_stopCountdownTimer fmt w) = _countdownInterval w /\
  (forall now, _startTimer fmt now w = w) /\
  (forall now, _countdownInterval w <> None -> _startCountdown fmt now w = w)
  /\
  (count is_endConference (effects w) = 1%nat ->
   forall evs',
     timers (run fmt evs' w) = ∅ /\
     count (is_setInterval CountdownTick) (effects (run fmt evs' w)) = 1%nat).
Proof.
  intros w. subst w. reach w HI.
  pose proof HI as (Hs & _ & Hm).
  split; [lia|]. split.
  { destruct Hm as [(_ & H & _) | [(_ & H & _) | (_ & H & _)]]; lia. }
  split; [apply _stopTimer_keeps_handles|].
  split; [apply _stopCountdownTimer_keeps_handles|].
  split.
  { intros now. apply _startTimer_noop.
    destruct (Inv_modes _ HI) as [(H & _) | [(H & _) | (H & _)]]; congruence. }
  split; [intros now Hc; apply _startCountdown_noop, Hc|].
  intros He evs'. split; [apply terminated_forever; assumption|].
  destruct (run_counts evs' w HI) as (Hc & _).
  destruct (run_Inv evs' w HI)
    as (_ & _ & [(_ & _ & H0) | [(_ & _ & H0) | (_ & H1 & _)]]);
    [lia | lia | exact H1].
Qed.

(** Two consecutive events that both run the countdown callback with
    00:30 on display dispatch two notices, whatever the formatter. *)
Lemma thirty_twice_warns_twice w e1 e2 :
  Inv fmt w ->
  shows fmt "00:30" w e1 = true ->
  shows fmt "00:30" (step fmt w e1) e2 = true ->
  count is_showNotification (effects (run fmt [e1; e2] w))
  = (count is_showNotification (effects w) + 2)%nat.
Proof.
  intros HI H1 H2.
  destruct (step_Inv w e1 HI) as (HI1 & _ & Hn1).
  destruct (step_Inv (step fmt w e1) e2 HI1) as (_ & _ & Hn2).
  simpl. rewrite Hn2, Hn1, H1, H2. lia.
Qed.

(** What componentWillUnmount leaves registered, mode by mode: it
    clears the elapsed handle only. *)
Lemma componentWillUnmount_by_mode m w :
  in_mode m w ->
  timers (componentWillUnmount w)
  = match m with
    | Countdown => {[ 2%positive := CountdownTick ]}
    | _ => ∅
    end.
Proof.
  intros (Hi & Hm). unfold componentWillUnmount.
  rewrite (_stopTimer_timers _ _ Hi).
  destruct m; destruct Hm as (_ & _ & ->); reflexivity.
Qed.

Lemma componentWillUnmount_twice w :
  timers (componentWillUnmount (componentWillUnmount w))
  = timers (componentWillUnmount w).
Proof.
  unfold componentWillUnmount, _stopTimer.
  destruct (_interval w) as [h|] eqn:E; simpl; rewrite E; [|reflexivity].
  simpl. apply delete_id, lookup_delete_eq.
Qed.

(** ** Further properties of the component *)

(** *** The style and the notices *)

Lemma same_style_notices_trans w1 w2 w3 :
  same_style_notices w1 w2 -> same_style_notices w2 w3 ->
  same_style_notices w1 w3.
Proof. unfold same_style_notices. intros (-> & ->) (-> & ->). auto. Qed.

Lemma _setStateFromUTC_same_style ref cur w :
  same_style_notices (_setStateFromUTC fmt ref cur w) w.
Proof.
  destruct (_setStateFromUTC_cases ref cur w)
    as [E | (r & c & _ & _ & _ & _ & _ & E)]; rewrite E; split; reflexivity.
Qed.

Lemma _stopTimer_same_style w : same_style_notices (_stopTimer w) w.
Proof. unfold _stopTimer. destruct (_interval w); split; reflexivity. Qed.

Lemma _stopCountdownTimer_same_style w :
  same_style_notices (_stopCountdownTimer fmt w) w.
Proof.
  unfold _stopCountdownTimer.
  destruct (_countdownInterval w); split; reflexivity.
Qed.

Lemma _startCountdown_same_style now w :
  same_style_notices (_startCountdown fmt now w) w.
Proof.
  unfold _startCountdown.
  destruct (handle_set (_countdownInterval w)); [split; reflexivity|].
  simpl. apply (_setStateFromUTC_same_style (Some now)).
Qed.

Lemma countdown_tick_style now w :
  same_style_notices (countdown_tick fmt now w) w \/
  (textStyle (state (countdown_tick fmt now w)) = STYLE_RED /\
   count is_showNotification (effects (countdown_tick fmt now w))
   = S (count is_showNotification (effects w))).
Proof.
  unfold countdown_tick.
  pose proof (_setStateFromUTC_same_style
                (Some now) (_endTimestamp (props w)) w) as H1.
  set (w1 := _setStateFromUTC fmt (Some now) (_endTimestamp (props w)) w) in *.
  destruct H1 as (Hs1 & Hc1).
  destruct (String.eqb (timerValue (state w1)) "00:30").
  - right.
    set (w2 := dispatch countdownNotice (setState_textStyle STYLE_RED w1)).
    assert (H2 : textStyle (state w2) = STYLE_RED /\
                 count is_showNotification (effects w2)
                 = S (count is_showNotification (effects w)))
      by (split; [reflexivity | simpl; rewrite Hc1; reflexivity]).
    destruct (String.eqb (timerValue (state w2)) "00:01"); [|exact H2].
    destruct (_stopCountdownTimer_same_style (dispatch endConference w2))
      as (Hs & Hc).
    rewrite Hs, Hc. exact H2.
  - destruct (String.eqb (timerValue (state w1)) "00:01").
    + left. eapply same_style_notices_trans;
        [apply _stopCountdownTimer_same_style|].
      split; [exact Hs1 | exact Hc1].
    + left. split; assumption.
Qed.

Lemma step_style w e :
  same_style_notices (step fmt w e) w \/
  (textStyle (state (step fmt w e)) = STYLE_RED /\
   count is_showNotification (effects (step fmt w e))
   = S (count is_showNotification (effects w))).
Proof.
  destruct e as [p' now | h now]; simpl.
  - left. unfold componentDidUpdate.
    destruct (truthy (_endTimestamp (props (with_props p' w)))
              && bool_decide (_endTimestamp (props w)
                              ≠ _endTimestamp (props (with_props p' w))));
      [|split; reflexivity].
    eapply same_style_notices_trans; [apply _startCountdown_same_style|].
    eapply same_style_notices_trans; [apply _stopTimer_same_style|].
    split; reflexivity.
  - unfold fire. destruct (timers w !! h) as [[|]|].
    + left. apply _setStateFromUTC_same_style.
    + apply countdown_tick_style.
    + left. split; reflexivity.
Qed.

Lemma step_style_tracks w e :
  style_tracks_notices w -> style_tracks_notices (step fmt w e).
Proof.
  unfold style_tracks_notices.
  intros H. destruct (step_style w e) as [(Hs & Hc) | (Hs & Hc)];
    rewrite Hs, Hc.
  - exact H.
  - right. split; [reflexivity | lia].
Qed.

Lemma run_style_tracks evs w :
  style_tracks_notices w -> style_tracks_notices (run fmt evs w).
Proof.
  revert w. induction evs as [|e evs IH]; intros w H; [exact H|].
  rewrite run_cons. apply IH, step_style_tracks, H.
Qed.

Lemma run_notices_grow evs w :
  (count is_showNotification (effects w)
   <= count is_showNotification (effects (run fmt evs w)))%nat.
Proof.
  revert w. induction evs as [|e evs IH]; intros w; [simpl; lia|].
  rewrite run_cons. specialize (IH (step fmt w e)).
  destruct (step_style w e) as [(_ & Hc) | (_ & Hc)]; lia.
Qed.

Lemma mounted_style_tracks p now :
  style_tracks_notices (mounted fmt p now).
Proof.
  left. split; [|apply mounted_no_dispatch].
  unfold mounted, componentDidMount, _startTimer, constructor. simpl.
  case_update; reflexivity.
Qed.

(** X1. The display is in the alert style exactly when a countdown
    notice has been dispatched; no other style than the plain and the
    alert one is ever set, and the alert style, once set, stays for the
    rest of the life of the instance. *)
Theorem alert_style_iff_notice_dispatched p now0 evs evs' :
  let w := run fmt evs (mounted fmt p now0) in
  (textStyle (state w) = STYLE_RED <->
   (0 < count is_showNotification (effects w))%nat) /\
  (textStyle (state w) = STYLE_EMPTY \/ textStyle (state w) = STYLE_RED) /\
  (textStyle (state w) = STYLE_RED ->
   textStyle (state (run fmt evs' w)) = STYLE_RED).
Proof.
  intros w.
  pose proof (run_style_tracks evs _ (mounted_style_tracks p now0)) as H.
  fold w in H.
  pose proof (run_style_tracks evs' _ H) as H'.
  pose proof (run_notices_grow evs' w) as Hg.
  unfold style_tracks_notices in H, H'.
  split; [|split].
  - split.
    + intros Hr. destruct H as [(He & _) | (_ & Hc)]; [|exact Hc].
      rewrite Hr in He. discriminate.
    + intros Hc. destruct H as [(_ & H0) | (Hr & _)]; [lia | exact Hr].
  - destruct H as [(He & _) | (Hr & _)]; auto.
  - intros Hr. destruct H as [(He & _) | (_ & Hc)].
    + rewrite Hr in He. discriminate.
    + destruct H' as [(_ & H0) | (Hr' & _)]; [lia | exact Hr'].
Qed.

(** *** The elapsed mode *)

(** One event in a world where no countdown was started yet: either the
    event is an update that hands over a new truthy deadline, and the
    countdown handle gets assigned, or the event changes nothing but
    the props or the published duration. *)
Lemma step_in_Elapsed w e :
  Inv fmt w -> _countdownInterval w = None ->
  (_countdownInterval (step fmt w e) <> None /\
   exists p' now, e = PropsChanged p' now /\
     truthy (_endTimestamp p') = true /\
     _endTimestamp (props w) <> _endTimestamp p')
  \/
  (_countdownInterval (step fmt w e) = None /\
   match e with
   | PropsChanged p' _ =>
       truthy (_endTimestamp p')
       && bool_decide (_endTimestamp (props w) <> _endTimestamp p') = false /\
       step fmt w e = with_props p' w
   | Tick h now =>
       step fmt w e = w \/
       exists d, 0 <= d /\ step fmt w e = setState_timerValue (fmt d) w
   end).
Proof.
  intros HI Hc.
  destruct (Inv_modes _ HI)
    as [(Hi & _ & Hn & Hm) | [(_ & Hc' & _) | (_ & Hc' & _)]];
    [|congruence..].
  destruct e as [p' now | h now]; simpl.
  - unfold componentDidUpdate. simpl.
    destruct (truthy (_endTimestamp p')) eqn:Ht; simpl.
    + destruct (bool_decide_reflect (_endTimestamp (props w) ≠ _endTimestamp p'))
        as [Hd | Hd]; simpl.
      * left. split; [|eauto].
        unfold _startCountdown, _stopTimer. simpl. rewrite Hi. simpl.
        rewrite Hc. simpl. discriminate.
      * right. split; [exact Hc|]. split; reflexivity.
    + right. split; [exact Hc|]. split; reflexivity.
  - right. unfold fire. rewrite Hm, lookup_singleton.
    case_decide; [|split; [exact Hc | left; reflexivity]].
    unfold elapsed_tick.
    destruct (_setStateFromUTC_cases (_startTimestamp (props w)) (Some now) w)
      as [E | (r & c & _ & _ & _ & _ & Hle & E)]; rewrite E.
    + split; [exact Hc | left; reflexivity].
    + split; [exact Hc|]. right. exists (c - r). split; [lia | reflexivity].
Qed.

Lemma run_countdown_started evs w :
  Inv fmt w ->
  handle_set (_countdownInterval (run fmt evs w))
  = handle_set (_countdownInterval w)
    || delivers_deadline (_endTimestamp (props w)) evs.
Proof.
  revert w. induction evs as [|e evs IH]; intros w HI.
  - simpl. rewrite orb_false_r. reflexivity.
  - destruct (_countdownInterval w) as [c|] eqn:Hc.
    + pose proof (run_keeps_countdown_handle (e :: evs) w) as Hk.
      rewrite Hc in Hk.
      destruct (_countdownInterval (run fmt (e :: evs) w));
        [reflexivity | exfalso; apply Hk; [discriminate | reflexivity]].
    + rewrite run_cons.
      pose proof (proj1 (step_Inv w e HI)) as HI'.
      destruct (step_in_Elapsed w e HI Hc)
        as [(Hs & p' & now & -> & Ht & Hd) | (Hs & He)].
      * pose proof (run_keeps_countdown_handle evs _ Hs) as Hk.
        simpl delivers_deadline.
        rewrite Ht, (bool_decide_eq_true_2 _ Hd). simpl.
        destruct (_countdownInterval (run fmt evs _));
          [reflexivity | exfalso; apply Hk; reflexivity].
      * rewrite (IH _ HI'), Hs. destruct e as [p' now | h now].
        -- destruct He as (Hcond & Hw). rewrite Hw. simpl.
           rewrite Hcond. reflexivity.
        -- destruct He as [Hw | (d & _ & Hw)]; rewrite Hw; reflexivity.
Qed.

Lemma run_quiet evs w :
  Inv fmt w ->
  forallb is_quiet (effects w) = true ->
  textStyle (state w) = STYLE_EMPTY ->
  _countdownInterval (run fmt evs w) = None ->
  forallb is_quiet (effects (run fmt evs w)) = true /\
  textStyle (state (run fmt evs w)) = STYLE_EMPTY.
Proof.
  revert w. induction evs as [|e evs IH]; intros w HI Hq Hs Hend;
    [split; assumption|].
  rewrite run_cons in *.
  pose proof (proj1 (step_Inv w e HI)) as HI'.
  assert (Hc' : _countdownInterval (step fmt w e) = None).
  { destruct (_countdownInterval (step fmt w e)) eqn:E; [|reflexivity].
    exfalso. apply (run_keeps_countdown_handle evs (step fmt w e));
      [rewrite E; discriminate | exact Hend]. }
  assert (Hc : _countdownInterval w = None).
  { destruct (_countdownInterval w) eqn:E; [|reflexivity].
    exfalso. apply (step_keeps_countdown_handle w e);
      [rewrite E; discriminate | exact Hc']. }
  destruct (step_in_Elapsed w e HI Hc) as [(Hne & _) | (_ & He)];
    [congruence|].
  apply IH; try assumption.
  - destruct e as [p' now | h now].
    + destruct He as (_ & ->). exact Hq.
    + destruct He as [-> | (d & _ & ->)]; [exact Hq|]. simpl. exact Hq.
  - destruct e as [p' now | h now].
    + destruct He as (_ & ->). exact Hs.
    + destruct He as [-> | (d & _ & ->)]; exact Hs.
Qed.

Lemma mounted_quiet p now :
  forallb is_quiet (effects (mounted fmt p now)) = true /\
  textStyle (state (mounted fmt p now)) = STYLE_EMPTY.
Proof.
  unfold mounted, componentDidMount, _startTimer, constructor. simpl.
  case_update; split; reflexivity.
Qed.

(** X2. At any time at most one loop is registered with the host, and
    the elapsed loop is the registered one exactly as long as no
    countdown handle has been stored. *)
Theorem at_most_one_loop_registered p now0 evs :
  let w := run fmt evs (mounted fmt p now0) in
  (size (timers w) <= 1)%nat /\
  ((exists h, timers w !! h = Some ElapsedTick) <->
   _countdownInterval w = None).
Proof.
  intros w. subst w. reach w HI.
  destruct (Inv_modes _ HI)
    as [(_ & Hc & _ & Hm) | [(_ & Hc & _ & Hm) | (_ & Hc & _ & Hm)]];
    rewrite Hm, Hc.
  - split; [rewrite map_size_singleton; lia|].
    split; [reflexivity|]. intros _. exists 1%positive. reflexivity.
  - split; [rewrite map_size_singleton; lia|].
    split; [|discriminate]. intros (h & Hh).
    rewrite lookup_singleton in Hh. case_decide; discriminate.
  - split; [rewrite map_size_empty; lia|].
    split; [|discriminate]. intros (h & Hh).
    rewrite lookup_empty in Hh. discriminate.
Qed.

(** X3. A countdown handle is stored exactly when some update of the
    run handed over a truthy deadline different from the deadline prop
    it replaced. A deadline that is already there at mount, or one that
    is 0, starts no countdown. *)
Theorem countdown_started_iff_deadline_delivered p now0 evs :
  handle_set (_countdownInterval (run fmt evs (mounted fmt p now0)))
  = delivers_deadline (_endTimestamp p) evs.
Proof.
  rewrite (run_countdown_started evs _ (mounted_Inv p now0)).
  unfold mounted, componentDidMount, _startTimer, constructor. simpl.
  case_update; reflexivity.
Qed.

(** X4. As long as no countdown handle is stored, the instance has
    dispatched nothing, cleared no timer and set no style: its calls
    are publications of a duration and the one setInterval, and the
    display is in the plain style. *)
Theorem elapsed_mode_is_quiet p now0 evs :
  let w := run fmt evs (mounted fmt p now0) in
  _countdownInterval w = None ->
  forallb is_quiet (effects w) = true /\
  textStyle (state w) = STYLE_EMPTY.
Proof.
  intros w Hc. destruct (mounted_quiet p now0) as (Hq & Hs).
  apply run_quiet; try assumption. apply mounted_Inv.
Qed.

(** X5. A tick of the registered elapsed loop, with a start timestamp
    that is present, not zero and not after the sampled time (itself
    not zero), publishes the formatting of now - start and nothing
    else; what is rendered afterwards is that string in the plain
    style. This holds whenever the start timestamp arrived, at mount or
    in a later update. *)
Theorem elapsed_tick_renders_elapsed_time p now0 evs h now s :
  let w := run fmt evs (mounted fmt p now0) in
  timers w !! h = Some ElapsedTick ->
  _startTimestamp (props w) = Some s -> s <> 0 -> now <> 0 -> s <= now ->
  let w' := step fmt w (Tick h now) in
  render w' = Some (fmt (now - s), STYLE_EMPTY) /\
  effects w' = SetTimerValue (fmt (now - s)) :: effects w /\
  timers w' = timers w.
Proof.
  intros w Ht Hs Hs0 Hn Hle w'.
  assert (Hc : _countdownInterval w = None).
  { destruct (_countdownInterval w) eqn:E; [|reflexivity].
    exfalso.
    apply (countdown_handle_excludes_elapsed w h
             (reachable_Inv p now0 evs)); [rewrite E; discriminate | exact Ht]. }
  destruct (mounted_quiet p now0) as (Hq & Hsty).
  destruct (run_quiet evs _ (mounted_Inv p now0) Hq Hsty Hc) as (_ & Hst).
  fold w in Hst. subst w'. simpl. unfold fire. rewrite Ht.
  unfold elapsed_tick. rewrite Hs, _setStateFromUTC_publishes by assumption.
  unfold render. simpl. rewrite Hs. simpl.
  destruct (Z.eqb_spec s 0); [contradiction|]. simpl.
  rewrite Hst. repeat split; reflexivity.
Qed.

(** *** The handles the instance clears *)

Lemma owns_same_handles w w' :
  _interval w' = _interval w ->
  _countdownInterval w' = _countdownInterval w ->
  effects w' = effects w ->
  owns w -> owns w'.
Proof. unfold owns. intros -> -> ->. auto. Qed.

Lemma owns_one_more_call w w' e :
  _interval w' = _interval w ->
  _countdownInterval w' = _countdownInterval w ->
  effects w' = e :: effects w ->
  (forall h, e = ClearInterval h ->
             existsb (is_setInterval_of h) (effects w) = true) ->
  owns w -> owns w'.
Proof.
  unfold owns. intros -> -> -> Hcl (O1 & O2 & O3). split; [|split].
  - intros h Hh. simpl. rewrite (O1 h Hh). apply orb_true_r.
  - intros h Hh. simpl. rewrite (O2 h Hh). apply orb_true_r.
  - destruct e; simpl; try exact O3.
    rewrite (Hcl _ eq_refl), O3. reflexivity.
Qed.

Lemma owns_new_timer w w' n cb :
  owns w ->
  (_interval w' = _interval w \/ _interval w' = Some n) ->
  (_countdownInterval w' = _countdownInterval w \/
   _countdownInterval w' = Some n) ->
  effects w' = SetInterval n cb :: effects w ->
  owns w'.
Proof.
  unfold owns. intros (O1 & O2 & O3) Hi Hc ->. simpl.
  split; [|split]; [| |exact O3].
  - intros h Hh. destruct Hi as [Hi | Hi]; rewrite Hi in Hh.
    + rewrite (O1 h Hh). apply orb_true_r.
    + injection Hh as ->. rewrite Pos.eqb_refl. reflexivity.
  - intros h Hh. destruct Hc as [Hc | Hc]; rewrite Hc in Hh.
    + rewrite (O2 h Hh). apply orb_true_r.
    + injection Hh as ->. rewrite Pos.eqb_refl. reflexivity.
Qed.

Lemma _setStateFromUTC_owns ref cur w :
  owns w -> owns (_setStateFromUTC fmt ref cur w).
Proof.
  intros HO. destruct (_setStateFromUTC_cases ref cur w)
    as [E | (r & c & _ & _ & _ & _ & _ & E)]; rewrite E; [exact HO|].
  eapply (owns_one_more_call w); try reflexivity; [intros ? [=] | exact HO].
Qed.

Lemma clearInterval_owns h w :
  _interval w = Some h \/ _countdownInterval w = Some h ->
  owns w -> owns (clearInterval h w).
Proof.
  intros Hh HO. eapply (owns_one_more_call w); try reflexivity; [|exact HO].
  intros h' [= <-]. destruct HO as (O1 & O2 & _).
  destruct Hh as [Hh | Hh]; auto.
Qed.

Lemma _stopTimer_owns w : owns w -> owns (_stopTimer w).
Proof.
  intros HO. unfold _stopTimer. destruct (_interval w) eqn:E; [|exact HO].
  apply clearInterval_owns; auto.
Qed.

Lemma _stopCountdownTimer_owns w :
  owns w -> owns (_stopCountdownTimer fmt w).
Proof.
  intros HO. unfold _stopCountdownTimer.
  eapply (owns_one_more_call
            (match _countdownInterval w with
             | Some h => clearInterval h w
             | None => w
             end)); try reflexivity; [intros ? [=]|].
  destruct (_countdownInterval w) eqn:E; [|exact HO].
  apply clearInterval_owns; auto.
Qed.

Lemma _startTimer_owns now w : owns w -> owns (_startTimer fmt now w).
Proof.
  intros HO. unfold _startTimer.
  destruct (handle_set (_interval w)); [exact HO|]. simpl.
  pose proof (_setStateFromUTC_owns
                (_startTimestamp (props w)) (Some now) w HO) as H1.
  set (w1 := _setStateFromUTC fmt (_startTimestamp (props w)) (Some now) w)
    in *.
  eapply (owns_new_timer w1);
    [exact H1 | right; reflexivity | left; reflexivity | reflexivity].
Qed.

Lemma _startCountdown_owns now w :
  owns w -> owns (_startCountdown fmt now w).
Proof.
  intros HO. unfold _startCountdown.
  destruct (handle_set (_countdownInterval w)); [exact HO|]. simpl.
  pose proof (_setStateFromUTC_owns
                (Some now) (_endTimestamp (props w)) w HO) as H1.
  set (w1 := _setStateFromUTC fmt (Some now) (_endTimestamp (props w)) w)
    in *.
  eapply (owns_new_timer w1);
    [exact H1 | left; reflexivity | right; reflexivity | reflexivity].
Qed.

Lemma countdown_tick_owns now w : owns w -> owns (countdown_tick fmt now w).
Proof.
  intros HO. unfold countdown_tick.
  pose proof (_setStateFromUTC_owns
                (Some now) (_endTimestamp (props w)) w HO) as H1.
  set (w1 := _setStateFromUTC fmt (Some now) (_endTimestamp (props w)) w) in *.
  assert (H2 : owns (if String.eqb (timerValue (state w1)) "00:30"
                     then dispatch countdownNotice
                            (setState_textStyle STYLE_RED w1)
                     else w1)).
  { destruct (String.eqb (timerValue (state w1)) "00:30"); [|exact H1].
    eapply (owns_one_more_call (setState_textStyle STYLE_RED w1));
      try reflexivity; [intros ? [=]|].
    eapply (owns_one_more_call w1); try reflexivity;
      [intros ? [=] | exact H1]. }
  set (w2 := if String.eqb (timerValue (state w1)) "00:30"
             then _ else _) in *.
  destruct (String.eqb (timerValue (state w2)) "00:01"); [|exact H2].
  apply _stopCountdownTimer_owns.
  eapply (owns_one_more_call w2); try reflexivity;
    [intros ? [=] | exact H2].
Qed.

Lemma step_owns w e : owns w -> owns (step fmt w e).
Proof.
  intros HO. destruct e as [p' now | h now]; simpl.
  - assert (HO' : owns (with_props p' w))
      by (eapply (owns_same_handles w); try reflexivity; exact HO).
    unfold componentDidUpdate.
    destruct (truthy (_endTimestamp (props (with_props p' w)))
              && bool_decide (_endTimestamp (props w)
                              ≠ _endTimestamp (props (with_props p' w))));
      [|exact HO'].
    apply _startCountdown_owns, _stopTimer_owns, HO'.
  - unfold fire. destruct (timers w !! h) as [[|]|]; [| |exact HO].
    + apply _setStateFromUTC_owns, HO.
    + apply countdown_tick_owns, HO.
Qed.

Lemma run_owns evs w : owns w -> owns (run fmt evs w).
Proof.
  revert w. induction evs as [|e evs IH]; intros w HO; [exact HO|].
  rewrite run_cons. apply IH, step_owns, HO.
Qed.

Lemma mounted_owns p now : owns (mounted fmt p now).
Proof.
  apply _startTimer_owns. unfold owns, constructor. simpl.
  repeat split; intros; discriminate.
Qed.

(** X6. The instance only ever calls clearInterval on a handle that one
    of its own earlier setInterval calls returned; this includes the
    call componentWillUnmount makes. *)
Theorem clears_only_own_handles p now0 evs :
  let w := run fmt evs (mounted fmt p now0) in
  clears_owned (effects w) = true /\
  clears_owned (effects (componentWillUnmount w)) = true.
Proof.
  intros w. pose proof (run_owns evs _ (mounted_owns p now0)) as HO.
  fold w in HO. split.
  - apply HO.
  - apply (_stopTimer_owns w HO).
Qed.

(** X7. componentWillUnmount leaves no timer registered exactly when no
    countdown loop is running at that moment; it never touches the
    display, and calling it again changes no timer. *)
Theorem unmount_clears_all_iff_no_countdown p now0 evs :
  let w := run fmt evs (mounted fmt p now0) in
  (timers (componentWillUnmount w) = ∅ <->
   forall h, timers w !! h <> Some CountdownTick) /\
  state (componentWillUnmount w) = state w /\
  timers (componentWillUnmount (componentWillUnmount w))
  = timers (componentWillUnmount w).
Proof.
  intros w. subst w. reach w HI.
  split; [|split].
  - destruct (Inv_modes _ HI) as [Hm | [Hm | Hm]];
      rewrite (componentWillUnmount_by_mode _ _ Hm);
      destruct Hm as (_ & _ & _ & Ht); rewrite Ht.
    + split; [|reflexivity]. intros _ h.
      rewrite lookup_singleton. case_decide; discriminate.
    + split.
      * intros He. apply (f_equal (fun m => m !! 2%positive)) in He.
        discriminate.
      * intros Hno. exfalso. apply (Hno 2%positive). reflexivity.
    + split; [|reflexivity]. intros _ h. rewrite lookup_empty. discriminate.
  - unfold componentWillUnmount, _stopTimer.
    destruct (_interval w); reflexivity.
  - apply componentWillUnmount_twice.
Qed.




(** *** The switch to the countdown *)

Lemma _stopTimer_frame w h :
  _interval w = Some h ->
  props (_stopTimer w) = props w /\
  state (_stopTimer w) = state w /\
  next_handle (_stopTimer w) = next_handle w /\
  effects (_stopTimer w) = ClearInterval h :: effects w.
Proof.
  intros Hi. unfold _stopTimer. rewrite Hi. repeat split; reflexivity.
Qed.

Lemma _startCountdown_publishes now d w :
  _countdownInterval w = None ->
  _endTimestamp (props w) = Some d -> d <> 0 -> now <> 0 -> now <= d ->
  state (_startCountdown fmt now w)
  = mkState (fmt (d - now)) (textStyle (state w)) /\
  effects (_startCountdown fmt now w)
  = SetInterval (next_handle w) CountdownTick
    :: SetTimerValue (fmt (d - now)) :: effects w.
Proof.
  intros Hc Hd Hd0 Hn Hle. unfold _startCountdown.
  rewrite Hc, Hd, _setStateFromUTC_publishes by assumption.
  split; reflexivity.
Qed.

(** X9. The update that starts the countdown, with a deadline that is
    not zero and not before the sampled time (itself not zero), clears
    the elapsed timer, publishes the formatting of the time left and
    registers the countdown loop, in this order and with no other call:
    whatever string is published there, the threshold checks are left
    to the ticks, and the display stays in the plain style. *)
Theorem deadline_switch_publishes_time_left p now0 evs p' now d :
  let w := run fmt evs (mounted fmt p now0) in
  _countdownInterval w = None ->
  _endTimestamp p' = Some d -> d <> 0 -> now <> 0 -> now <= d ->
  _endTimestamp (props w) <> Some d ->
  let w' := step fmt w (PropsChanged p' now) in
  state w' = mkState (fmt (d - now)) STYLE_EMPTY /\
  effects w'
  = SetInterval 2 CountdownTick :: SetTimerValue (fmt (d - now))
    :: ClearInterval 1 :: effects w.
Proof.
  intros w Hc Hd Hd0 Hn Hle Hdiff w'.
  destruct (mounted_quiet p now0) as (Hq & Hsty).
  destruct (run_quiet evs _ (mounted_Inv p now0) Hq Hsty Hc) as (_ & Hst).
  fold w in Hst.
  pose proof (reachable_Inv p now0 evs) as HI. fold w in HI.
  destruct (Inv_modes _ HI)
    as [(Hi & _ & Hnx & _) | [(_ & Hc' & _) | (_ & Hc' & _)]];
    [|congruence..].
  assert (Htr : truthy (Some d) = true)
    by (simpl; destruct (Z.eqb_spec d 0); [contradiction | reflexivity]).
  assert (Hi' : _interval (with_props p' w) = Some 1%positive) by exact Hi.
  destruct (_stopTimer_frame _ _ Hi') as (Hp & Hs & Hn' & He).
  assert (Hstep : w' = _startCountdown fmt now (_stopTimer (with_props p' w))).
  { subst w'. simpl. unfold componentDidUpdate.
    change (props (with_props p' w)) with p'.
    rewrite Hd, Htr, (bool_decide_eq_true_2 _ Hdiff). reflexivity. }
  destruct (_startCountdown_publishes now d (_stopTimer (with_props p' w)))
    as (Hs' & He'); try assumption.
  - rewrite (proj2 (_stopTimer_keeps_handles _)). exact Hc.
  - rewrite Hp. exact Hd.
  - rewrite Hstep, Hs', He', Hs, Hn', He.
    change (state (with_props p' w)) with (state w).
    change (next_handle (with_props p' w)) with (next_handle w).
    change (effects (with_props p' w)) with (effects w).
    rewrite Hst, Hnx. split; reflexivity.
Qed.

End Facts.

(** ** The component on concrete inputs

    The formatter is [formatDuration]; times are milliseconds. In all
    runs below the session started at 1000 and the instance is mounted
    a little later. *)

Example formatDuration_65s : formatDuration 65000 = "01:05"%string.
Proof. reflexivity. Qed.

Example formatDuration_hour : formatDuration 3725000 = "1:02:05"%string.
Proof. reflexivity. Qed.

(** Scenario of the spec: start T, no deadline, now = T + 65000. *)
Example scenario_elapsed_65s :
  render
    (mounted formatDuration (mkProps (Some 1000) None) 66000)
  = Some ("01:05"%string, STYLE_EMPTY).
Proof. reflexivity. Qed.

(** Scenario of the spec: a deadline 31 seconds ahead, ticks one second
    apart. The display passes 00:30 (one notice, alert style) and
    reaches 00:01 (one terminate), then shows 00:00 with nothing left
    registered. *)
Example scenario_countdown_31s :
  let w :=
    run formatDuration
      (PropsChanged (mkProps (Some 1000) (Some 34000)) 3000
       :: ticks 2 4000 31)
      (mounted formatDuration (mkProps (Some 1000) None) 2000) in
  state w = mkState "00:00" STYLE_RED /\
  count is_showNotification (effects w) = 1%nat /\
  count is_endConference (effects w) = 1%nat /\
  timers w = ∅.
Proof. vm_compute. repeat split; reflexivity. Qed.

(** C1. The instance is mounted, a deadline arrives and the countdown
    loop starts under handle 2; componentWillUnmount then calls
    clearInterval on handle 1 only, and the countdown loop is still
    registered with the host after the unmount. *)
Theorem unmount_leaves_countdown_loop_registered :
  let w :=
    run formatDuration
      [PropsChanged (mkProps (Some 1000) (Some 60000)) 3000]
      (mounted formatDuration (mkProps (Some 1000) None) 2000) in
  timers w !! 2%positive = Some CountdownTick /\
  effects (componentWillUnmount w) = ClearInterval 1 :: effects w /\
  timers (componentWillUnmount w) !! 2%positive = Some CountdownTick.
Proof. vm_compute. repeat split; reflexivity. Qed.

(** C2, refuted as stated. After the countdown has run to its end both
    handle fields are still set although no loop is registered. *)
Lemma handle_stays_set_after_stop :
  let w :=
    run formatDuration
      [PropsChanged (mkProps (Some 1000) (Some 5000)) 3000; Tick 2 4000]
      (mounted formatDuration (mkProps (Some 1000) None) 2000) in
  _interval w = Some 1%positive /\
  _countdownInterval w = Some 2%positive /\
  timers w !! 1%positive = None /\
  timers w !! 2%positive = None.
Proof. vm_compute. repeat split; reflexivity. Qed.

Lemma scheduled_loop_has_handle_and_stop_keeps_it_witness :
  let w := run formatDuration []
             (mounted formatDuration (mkProps (Some 1000) None) 2000) in
  timers w !! 1%positive = Some ElapsedTick /\
  (handle_of ElapsedTick w = Some 1%positive /\
   timers (stop_of formatDuration ElapsedTick w) !! 1%positive = None /\
   handle_of ElapsedTick (stop_of formatDuration ElapsedTick w)
   = Some 1%positive).
Proof.
  split; [reflexivity|].
  apply (scheduled_loop_has_handle_and_stop_keeps_it formatDuration
           (mkProps (Some 1000) None) 2000 [] 1%positive ElapsedTick).
  reflexivity.
Defined.

(** C3, refuted as stated. A countdown to 100000 is running under
    handle 2 when the deadline changes to 200000: the only call made is
    clearInterval on handle 1, and the loop under handle 2 stays
    registered. *)
Lemma deadline_change_keeps_running_countdown :
  let w :=
    run formatDuration
      [PropsChanged (mkProps (Some 1000) (Some 100000)) 3000]
      (mounted formatDuration (mkProps (Some 1000) None) 2000) in
  let w' :=
    step formatDuration w
      (PropsChanged (mkProps (Some 1000) (Some 200000)) 4000) in
  timers w !! 2%positive = Some CountdownTick /\
  effects w' = ClearInterval 1 :: effects w /\
  timers w' !! 2%positive = Some CountdownTick.
Proof. vm_compute. repeat split; reflexivity. Qed.

Lemma deadline_change_stops_elapsed_loop_witness :
  let w := run formatDuration []
             (mounted formatDuration (mkProps (Some 1000) None) 2000) in
  let w' :=
    step formatDuration w
      (PropsChanged (mkProps (Some 1000) (Some 60000)) 3000) in
  truthy (Some 60000) = true /\
  _endTimestamp (props w) <> Some 60000 /\
  (forall evs' h,
     timers (run formatDuration evs' w') !! h <> Some ElapsedTick) /\
  timers w' = {[ 2%positive := CountdownTick ]}.
Proof.
  assert (H1 : truthy (Some 60000) = true) by reflexivity.
  assert (H2 : (None : option Z) <> Some 60000) by discriminate.
  split; [exact H1|]. split; [exact H2|].
  destruct (deadline_change_stops_elapsed_loop formatDuration
              (mkProps (Some 1000) None) 2000 []
              (mkProps (Some 1000) (Some 60000)) 3000 H1 H2)
    as (Hno & Hnew & _).
  split; [exact Hno|]. apply Hnew. reflexivity.
Defined.

(** C4, refuted as stated. Mounted without a start timestamp, the
    instance calls setInterval and the elapsed loop is registered. *)
Lemma mount_without_start_registers_loop :
  let w := mounted formatDuration (mkProps None None) 5000 in
  effects w = [SetInterval 1 ElapsedTick] /\
  timers w !! 1%positive = Some ElapsedTick.
Proof. vm_compute. split; reflexivity. Qed.

Lemma mount_without_start_timestamp_witness :
  let w := mounted formatDuration (mkProps None None) 5000 in
  truthy None = false /\
  (render w = None /\
   state w = state (constructor formatDuration (mkProps None None)) /\
   effects w = [SetInterval 1 ElapsedTick] /\
   timers w = {[ 1%positive := ElapsedTick ]} /\
   (forall now', fire formatDuration 1 now' w = w)).
Proof.
  split; [reflexivity|].
  apply (mount_without_start_timestamp formatDuration (mkProps None None) 5000).
  reflexivity.
Defined.

(** C5, refuted as stated. A start timestamp of 0 is present and not
    after now = 5000, yet mounting publishes nothing: the display stays
    at 00:00 where the formatting of 5000 is 00:05. *)
Lemma mount_with_epoch_start_publishes_nothing :
  let w := mounted formatDuration (mkProps (Some 0) None) 5000 in
  0 <= 5000 /\
  effects w = [SetInterval 1 ElapsedTick] /\
  timerValue (state w) = "00:00"%string /\
  formatDuration (5000 - 0) = "00:05"%string.
Proof. vm_compute. repeat split; try reflexivity. discriminate. Qed.

Lemma mount_publishes_elapsed_witness :
  let w := mounted formatDuration (mkProps (Some 1000) None) 66000 in
  Some 1000 = Some 1000 /\ 1000 <> 0 /\ 66000 <> 0 /\ 1000 <= 66000 /\
  (timerValue (state w) = formatDuration (66000 - 1000) /\
   effects w = [SetInterval 1 ElapsedTick;
                SetTimerValue (formatDuration (66000 - 1000))]).
Proof.
  split; [reflexivity|]. split; [lia|]. split; [lia|]. split; [lia|].
  apply (mount_publishes_elapsed formatDuration
           (mkProps (Some 1000) None) 66000 1000); [reflexivity | lia..].
Defined.






(** ** Further properties on concrete inputs *)

Lemma elapsed_mode_is_quiet_witness :
  let w :=
    run formatDuration [Tick 1 3000; Tick 1 4000]
      (mounted formatDuration (mkProps (Some 1000) None) 2000) in
  _countdownInterval w = None /\
  (forallb is_quiet (effects w) = true /\
   textStyle (state w) = STYLE_EMPTY).
Proof.
  split; [reflexivity|].
  apply (elapsed_mode_is_quiet formatDuration
           (mkProps (Some 1000) None) 2000 [Tick 1 3000; Tick 1 4000]).
  reflexivity.
Defined.

(** The start timestamp is absent at mount and arrives in an update;
    the next tick of the elapsed loop renders the elapsed time. *)
Lemma elapsed_tick_renders_elapsed_time_witness :
  let w :=
    run formatDuration [PropsChanged (mkProps (Some 1000) None) 2500]
      (mounted formatDuration (mkProps None None) 2000) in
  let w' := step formatDuration w (Tick 1 66000) in
  timers w !! 1%positive = Some ElapsedTick /\
  _startTimestamp (props w) = Some 1000 /\
  1000 <> 0 /\ 66000 <> 0 /\ 1000 <= 66000 /\
  (render w' = Some (formatDuration (66000 - 1000), STYLE_EMPTY) /\
   effects w' = SetTimerValue (formatDuration (66000 - 1000)) :: effects w /\
   timers w' = timers w).
Proof.
  split; [reflexivity|]. split; [reflexivity|].
  split; [lia|]. split; [lia|]. split; [lia|].
  apply (elapsed_tick_renders_elapsed_time formatDuration
           (mkProps None None) 2000
           [PropsChanged (mkProps (Some 1000) None) 2500]
           1%positive 66000 1000); [reflexivity | reflexivity | lia..].
Defined.


(** The deadline arrives with exactly 30 seconds left: 00:30 is
    published by the update itself and no notice is dispatched. *)
Lemma deadline_switch_publishes_time_left_witness :
  let w := run formatDuration []
             (mounted formatDuration (mkProps (Some 1000) None) 2000) in
  let w' :=
    step formatDuration w
      (PropsChanged (mkProps (Some 1000) (Some 33000)) 3000) in
  _countdownInterval w = None /\
  33000 <> 0 /\ 3000 <> 0 /\ 3000 <= 33000 /\
  _endTimestamp (props w) <> Some 33000 /\
  (state w' = mkState (formatDuration (33000 - 3000)) STYLE_EMPTY /\
   effects w'
   = SetInterval 2 CountdownTick
     :: SetTimerValue (formatDuration (33000 - 3000))
     :: ClearInterval 1 :: effects w).
Proof.
  assert (Hdiff : (None : option Z) <> Some 33000) by discriminate.
  split; [reflexivity|]. split; [lia|]. split; [lia|]. split; [lia|].
  split; [exact Hdiff|].
  apply (deadline_switch_publishes_time_left formatDuration
           (mkProps (Some 1000) None) 2000 []
           (mkProps (Some 1000) (Some 33000)) 3000 33000);
    [reflexivity | reflexivity | lia | lia | lia | exact Hdiff].
Defined.
